(** * The MLP head of vissl/models/heads/mlp.py

    A shallow embedding of [MLP.__init__] and [MLP.forward].  The layers of
    [torch.nn] are kept as the constructor calls the module makes (class and
    arguments), configurations are attribute dictionaries, and Python
    exceptions are the left side of a result type. *)

From Stdlib Require Import ZArith Floats.
From stdpp Require Import gmap strings list fin_maps.

#[local] Set Warnings "-inexact-float".
Local Open Scope Z_scope.

(** ** Exceptions and results *)

Inductive exn : Type :=
| IndexError                       (* [dims[0]] on an empty sequence *)
| AttributeError (name : string)   (* a missing key of an AttrDict *)
| ShapeMismatch                    (* a layer of the runtime rejects its input *)
| ConstructorError.                (* a layer constructor rejects a width *)

Inductive result (A : Type) : Type :=
| Ok (a : A)
| Raise (e : exn).
Arguments Ok {A} a.
Arguments Raise {A} e.

(** Sequencing: the first exception raised ends the computation. *)
#[global] Instance result_bind : MBind result := fun A B k r =>
  match r with
  | Ok a => k a
  | Raise e => Raise e
  end.

(** ** Python sequences and attribute dictionaries *)

(** [xs[i]] for a non-negative index. *)
Definition py_index {A : Type} (xs : list A) (i : nat) : result A :=
  match xs !! i with
  | Some x => Ok x
  | None => Raise IndexError
  end.

(** [xs[i:]]. *)
Definition py_slice_from {A : Type} (i : nat) (xs : list A) : list A := drop i xs.

(** [d.name] on an AttrDict. *)
Definition getattr {V : Type} (d : gmap string V) (name : string) : result V :=
  match d !! name with
  | Some v => Ok v
  | None => Raise (AttributeError name)
  end.

(** [config.MODEL]: the sub-dictionaries of the model configuration, each
    holding its numeric settings. *)
Abbreviation AttrDict := (gmap string (gmap string float)).

(** ** Layers *)

Inductive Module : Type :=
| Linear (in_features out_features : Z) (bias : bool)
| BatchNorm1d (num_features : Z) (eps momentum : float)
| ReLU (inplace : bool)
| Dropout (p : float).

(** [nn.Dropout()] : the default probability of the runtime. *)
Definition Dropout_default : Module := Dropout 0.5%float.

(** The sizes a parameter tensor can be allocated with: not negative, and
    within a signed 64-bit integer.  (How much storage the machine has is
    left out.) *)
Definition valid_size (n : Z) : bool := (0 <=? n) && (n <? 2 ^ 63).

Definition valid_widths (dims : list Z) : bool := forallb valid_size dims.

(** [nn.Linear(in_features, out_features, bias=bias)]: allocating the weight
    of shape (out_features, in_features) raises on a width that is no valid
    size. *)
Definition nn_Linear (in_features out_features : Z) (bias : bool) : result Module :=
  if valid_size out_features && valid_size in_features
  then Ok (Linear in_features out_features bias)
  else Raise ConstructorError.

(** [nn.BatchNorm1d(num_features, eps=eps, momentum=momentum)]: allocates
    its parameters of size num_features. *)
Definition nn_BatchNorm1d (num_features : Z) (eps momentum : float) : result Module :=
  if valid_size num_features
  then Ok (BatchNorm1d num_features eps momentum)
  else Raise ConstructorError.

Record MLP : Type := mkMLP { clf : list Module }.

(** ** MLP.__init__ *)

Section Init.
Variable model_config : AttrDict.
Variables use_bn use_relu use_dropout use_bias : bool.

(** One iteration of [for dim in dims[1:]] on the state
    [(layers, last_dim)]. *)
Definition loop_body (st : list Module * Z) (dim : Z) : result (list Module * Z) :=
  let '(layers, last_dim) := st in
  linear ← nn_Linear last_dim dim use_bias;
  let layers := layers ++ [linear] in
  layers ← (if use_bn then
               head ← getattr model_config "HEAD";
               eps ← getattr head "BATCHNORM_EPS";
               head' ← getattr model_config "HEAD";
               momentum ← getattr head' "BATCHNORM_MOMENTUM";
               norm ← nn_BatchNorm1d dim eps momentum;
               Ok (layers ++ [norm])
             else Ok layers);
  let '(layers, last_dim) :=
    if use_relu then (layers ++ [ReLU true], dim) else (layers, last_dim) in
  let layers := if use_dropout then layers ++ [Dropout_default] else layers in
  Ok (layers, last_dim).

Fixpoint for_loop (st : list Module * Z) (ds : list Z) : result (list Module * Z) :=
  match ds with
  | [] => Ok st
  | dim :: ds' => st' ← loop_body st dim; for_loop st' ds'
  end.

Definition MLP_init (dims : list Z) : result MLP :=
  last_dim ← py_index dims 0;
  st ← for_loop ([], last_dim) (py_slice_from 1 dims);
  Ok (mkMLP (fst st)).
End Init.

(** ** Tensors and MLP.forward *)

(** A tensor: its shape and its elements in row-major order. *)
Record Tensor : Type := mkTensor { shape : list nat; storage : list float }.

(** [torch.squeeze(t)]: every axis of size 1 is removed, the elements stay. *)
Definition torch_squeeze (t : Tensor) : Tensor :=
  mkTensor (filter (λ d, d ≠ 1%nat) (shape t)) (storage t).

Section Forward.
(** The forward pass of a single layer, provided by the runtime. *)
Variable call : Module -> Tensor -> result Tensor.

(** Calling [self.clf], the [nn.Sequential] made of the layers: they are
    applied in the order in which they were appended. *)
Fixpoint Sequential_call (layers : list Module) (input : Tensor) : result Tensor :=
  match layers with
  | [] => Ok input
  | layer :: layers' => out ← call layer input; Sequential_call layers' out
  end.

Definition MLP_forward (self : MLP) (batch : Tensor) : result Tensor :=
  let batch := torch_squeeze batch in
  out ← Sequential_call (clf self) batch;
  Ok out.
End Forward.

(** ** Reading a layer stack *)

(** The widths [(in_features, out_features)] of a linear layer. *)
Definition linear_io (layer : Module) : option (Z * Z) :=
  match layer with
  | Linear i o _ => Some (i, o)
  | _ => None
  end.

(** The linear layers of a stack, in order. *)
Definition linears (layers : list Module) : list (Z * Z) := omap linear_io layers.

(** Layers that return a tensor of the shape they were given. *)
Definition keeps_shape (layer : Module) : bool :=
  match layer with
  | Linear _ _ _ => false
  | _ => true
  end.

(** The size of the last axis of a tensor. *)
Definition width (t : Tensor) : option Z := Z.of_nat <$> last (shape t).

(** What the layers of the runtime do to shapes: a linear layer takes
    tensors whose last axis has [in_features] elements and returns one whose
    last axis has [out_features]; the other layers keep the shape; a layer
    that rejects its input raises [ShapeMismatch]. *)
Record shape_contract (call : Module -> Tensor -> result Tensor) : Prop := {
  linear_shape : ∀ i o b t t',
    call (Linear i o b) t = Ok t' → width t = Some i ∧ width t' = Some o;
  other_shape : ∀ layer t t',
    keeps_shape layer = true → call layer t = Ok t' → shape t' = shape t;
  call_raises : ∀ layer t e, call layer t = Raise e → e = ShapeMismatch
}.

(** A runtime that tracks shapes only: each layer checks the shape of its
    input and returns the zero tensor of the output shape. *)
Definition zeros (sh : list nat) : Tensor :=
  mkTensor sh (replicate (foldr Nat.mul 1%nat sh) 0%float).

Definition shape_call (layer : Module) (t : Tensor) : result Tensor :=
  match layer with
  | Linear i o _ =>
      match reverse (shape t) with
      | n :: batch_rev =>
          if bool_decide (Z.of_nat n = i ∧ 0 ≤ o)
          then Ok (zeros (reverse (Z.to_nat o :: batch_rev)))
          else Raise ShapeMismatch
      | [] => Raise ShapeMismatch
      end
  | BatchNorm1d c _ _ =>
      match shape t with
      | [_; n] | [_; n; _] =>
          if bool_decide (Z.of_nat n = c) then Ok (zeros (shape t))
          else Raise ShapeMismatch
      | _ => Raise ShapeMismatch
      end
  | ReLU _ | Dropout _ => Ok (zeros (shape t))
  end.

(** ** The stack, stage by stage *)

(** A configuration that supplies both settings of the normalization. *)
Definition config_supplies (model_config : AttrDict) (eps momentum : float) : Prop :=
  ∃ head, model_config !! "HEAD" = Some head
          ∧ head !! "BATCHNORM_EPS" = Some eps
          ∧ head !! "BATCHNORM_MOMENTUM" = Some momentum.

(** Two configurations that agree on what the normalization reads. *)
Definition agree_on_bn (c1 c2 : AttrDict) : Prop :=
  match c1 !! "HEAD", c2 !! "HEAD" with
  | Some h1, Some h2 =>
      h1 !! "BATCHNORM_EPS" = h2 !! "BATCHNORM_EPS"
      ∧ h1 !! "BATCHNORM_MOMENTUM" = h2 !! "BATCHNORM_MOMENTUM"
  | None, None => True
  | _, _ => False
  end.

Section Stages.
Variables use_bn use_relu use_dropout use_bias : bool.
Variables eps momentum : float.

(** The layers of one stage, in the order of the specification: linear,
    then normalization, nonlinearity and dropout where enabled. *)
Definition stage (last_dim dim : Z) : list Module :=
  [Linear last_dim dim use_bias]
  ++ (if use_bn then [BatchNorm1d dim eps momentum] else [])
  ++ (if use_relu then [ReLU true] else [])
  ++ (if use_dropout then [Dropout_default] else []).

(** The stack the loop builds from [last_dim] and the remaining widths. *)
Fixpoint stages (last_dim : Z) (ds : list Z) : list Module :=
  match ds with
  | [] => []
  | dim :: ds' => stage last_dim dim ++ stages (if use_relu then dim else last_dim) ds'
  end.

(** The stack of the specification: one stage per consecutive pair of
    [dims]. *)
Fixpoint stack_spec (dims : list Z) : list Module :=
  match dims with
  | last_dim :: ((dim :: _) as dims') => stage last_dim dim ++ stack_spec dims'
  | _ => []
  end.
End Stages.

(** What an iteration reads of the configuration: nothing unless [use_bn]. *)
Definition settings (model_config : AttrDict) (use_bn : bool) : result (float * float) :=
  if use_bn then
    head ← getattr model_config "HEAD";
    eps ← getattr head "BATCHNORM_EPS";
    head' ← getattr model_config "HEAD";
    momentum ← getattr head' "BATCHNORM_MOMENTUM";
    Ok (eps, momentum)
  else Ok (0%float, 0%float).

(** [last_dim] when the loop over [ds] ends. *)
Definition last_dim_after (use_relu : bool) (last_dim : Z) (ds : list Z) : Z :=
  if use_relu then default last_dim (last ds) else last_dim.

Definition nat_of_flag (b : bool) : nat := if b then 1%nat else 0%nat.

(** Sample inputs. *)
Definition head0 : gmap string float :=
  {[ "BATCHNORM_EPS" := 1e-5%float; "BATCHNORM_MOMENTUM" := 0.1%float ]}.
Definition cfg0 : AttrDict := {[ "HEAD" := head0 ]}.
Definition cfg1 : AttrDict :=
  {[ "HEAD" := <[ "EVAL_MODE" := 1%float ]> head0; "TRUNK" := {[ "DEPTH" := 50%float ]} ]}.

(** ** Results *)

Lemma bind_Ok {A B : Type} (a : A) (k : A -> result B) : (Ok a ≫= k) = k a.
Proof. reflexivity. Qed.

Lemma bind_Raise {A B : Type} (e : exn) (k : A -> result B) : (Raise e ≫= k) = Raise e.
Proof. reflexivity. Qed.

Lemma bind_ret {A : Type} (r : result A) : (r ≫= Ok) = r.
Proof. by destruct r. Qed.

Lemma bind_Ok_inv {A B : Type} (r : result A) (k : A -> result B) (b : B) :
  (r ≫= k) = Ok b → ∃ a, r = Ok a ∧ k a = Ok b.
Proof. destruct r as [a|e]; [eauto | discriminate]. Qed.

(** ** The loop of MLP.__init__ *)

Lemma stage_without_bn relu dropout bias e m e' m' last_dim dim :
  stage false relu dropout bias e m last_dim dim = stage false relu dropout bias e' m' last_dim dim.
Proof. reflexivity. Qed.

Lemma stages_without_bn relu dropout bias e m e' m' last_dim ds :
  stages false relu dropout bias e m last_dim ds = stages false relu dropout bias e' m' last_dim ds.
Proof.
  revert last_dim. induction ds as [|dim ds IH]; intros last_dim; simpl; [done|].
  by rewrite IH.
Qed.

Lemma settings_supplies cfg e m :
  settings cfg true = Ok (e, m) ↔ config_supplies cfg e m.
Proof.
  unfold settings, config_supplies, getattr. split.
  - destruct (cfg !! "HEAD") as [head|] eqn:Hh; simpl; [|discriminate].
    destruct (head !! "BATCHNORM_EPS") as [e'|] eqn:He; simpl; [|discriminate].
    destruct (head !! "BATCHNORM_MOMENTUM") as [m'|] eqn:Hm; simpl; [|discriminate].
    intros [= -> ->]. eauto.
  - intros (head & -> & He & Hm). simpl. rewrite He. simpl. by rewrite Hm.
Qed.

Example valid_size_bounds :
  valid_size 0 = true ∧ valid_size (2 ^ 63 - 1) = true
  ∧ valid_size (-1) = false ∧ valid_size (2 ^ 63) = false.
Proof. repeat split; reflexivity. Qed.

Lemma valid_widths_cons d ds :
  valid_widths (d :: ds) = valid_size d && valid_widths ds.
Proof. reflexivity. Qed.

Lemma loop_body_eq cfg bn relu dropout bias layers last_dim dim :
  loop_body cfg bn relu dropout bias (layers, last_dim) dim =
    if valid_size dim && valid_size last_dim then
      p ← settings cfg bn;
      Ok (layers ++ stage bn relu dropout bias p.1 p.2 last_dim dim,
          if relu then dim else last_dim)
    else Raise ConstructorError.
Proof.
  unfold loop_body, nn_Linear, nn_BatchNorm1d, settings, stage.
  destruct (valid_size dim) eqn:Hdim; [|done].
  destruct (valid_size last_dim); [|done]. cbn [andb]. rewrite bind_Ok.
  destruct bn.
  - destruct (getattr cfg "HEAD") as [head|e]; simpl; [|done].
    destruct (getattr head "BATCHNORM_EPS") as [eps|e]; simpl; [|done].
    destruct (getattr head "BATCHNORM_MOMENTUM") as [mom|e]; simpl; [|done].
    destruct relu, dropout; simpl; by rewrite <- ?app_assoc.
  - destruct relu, dropout; simpl; by rewrite <- ?app_assoc.
Qed.

(** The loop once the configuration has been read and [last_dim] accepted:
    it goes on until a width is rejected. *)
Lemma for_loop_eq cfg bn relu dropout bias p layers last_dim ds :
  settings cfg bn = Ok p →
  valid_size last_dim = true →
  for_loop cfg bn relu dropout bias (layers, last_dim) ds =
    if valid_widths ds
    then Ok (layers ++ stages bn relu dropout bias p.1 p.2 last_dim ds,
             last_dim_after relu last_dim ds)
    else Raise ConstructorError.
Proof.
  intros Hp. revert layers last_dim.
  induction ds as [|dim ds IH]; intros layers last_dim Hlast.
  - simpl. rewrite app_nil_r. by destruct relu.
  - cbn [for_loop stages]. rewrite loop_body_eq, Hlast, valid_widths_cons, andb_true_r.
    destruct (valid_size dim) eqn:Hdim; [|done]. cbn [andb].
    rewrite Hp, !bind_Ok, IH by (by destruct relu).
    destruct (valid_widths ds); [|done]. rewrite <- app_assoc.
    do 2 f_equal. unfold last_dim_after. destruct relu; [|done].
    destruct ds as [|d ds']; [done|]. rewrite last_cons_cons.
    destruct (last (d :: ds')) eqn:Hl; [done|]. by apply last_None in Hl.
Qed.

(** [MLP.__init__], case by case on [dims]. *)
Lemma MLP_init_empty cfg bn relu dropout bias :
  MLP_init cfg bn relu dropout bias [] = Raise IndexError.
Proof. reflexivity. Qed.

Lemma MLP_init_single cfg bn relu dropout bias d :
  MLP_init cfg bn relu dropout bias [d] = Ok (mkMLP []).
Proof. reflexivity. Qed.

Lemma MLP_init_eq cfg bn relu dropout bias d0 d1 ds :
  MLP_init cfg bn relu dropout bias (d0 :: d1 :: ds) =
    if valid_size d1 && valid_size d0 then
      p ← settings cfg bn;
      if valid_widths ds
      then Ok (mkMLP (stages bn relu dropout bias p.1 p.2 d0 (d1 :: ds)))
      else Raise ConstructorError
    else Raise ConstructorError.
Proof.
  unfold MLP_init, py_index, py_slice_from. cbn [lookup list_lookup drop].
  rewrite bind_Ok. cbn [for_loop]. rewrite loop_body_eq.
  destruct (valid_size d1) eqn:H1; [|done].
  destruct (valid_size d0) eqn:H0; [|done]. cbn [andb].
  destruct (settings cfg bn) as [p|e] eqn:Hp; [|done].
  rewrite !bind_Ok, (for_loop_eq _ _ _ _ _ p) by (done || by destruct relu).
  destruct (valid_widths ds); [|done]. cbn [stages]. by rewrite <- app_assoc.
Qed.

Lemma MLP_init_supplied cfg bn relu dropout bias e m d0 ds :
  valid_widths (d0 :: ds) = true →
  (bn = true → config_supplies cfg e m) →
  MLP_init cfg bn relu dropout bias (d0 :: ds) = Ok (mkMLP (stages bn relu dropout bias e m d0 ds)).
Proof.
  intros Hv Hc. destruct ds as [|d1 ds]; [done|].
  rewrite !valid_widths_cons in Hv. apply andb_prop in Hv as [H0 [H1 Hds]%andb_prop].
  rewrite MLP_init_eq, H0, H1. cbn [andb]. destruct bn.
  - specialize (Hc eq_refl). apply settings_supplies in Hc. by rewrite Hc, bind_Ok, Hds.
  - simpl. by rewrite Hds, (stages_without_bn _ _ _ _ _ e m).
Qed.

Lemma MLP_init_Ok_settings cfg bn relu dropout bias d0 d1 ds self :
  MLP_init cfg bn relu dropout bias (d0 :: d1 :: ds) = Ok self →
  ∃ e m, settings cfg bn = Ok (e, m)
         ∧ clf self = stages bn relu dropout bias e m d0 (d1 :: ds).
Proof.
  rewrite MLP_init_eq.
  destruct (valid_size d1 && valid_size d0); [|done].
  intros ([e m] & Hs & Hrest)%bind_Ok_inv.
  destruct (valid_widths ds); [|done]. injection Hrest as <-. eauto.
Qed.


Lemma MLP_init_Ok_inv cfg bn relu dropout bias dims self :
  MLP_init cfg bn relu dropout bias dims = Ok self →
  ∃ d0 ds e m, dims = d0 :: ds ∧ clf self = stages bn relu dropout bias e m d0 ds.
Proof.
  destruct dims as [|d0 [|d1 ds]].
  - discriminate.
  - intros [= <-]. by exists d0, [], 0%float, 0%float.
  - intros (e & m & _ & Hclf)%MLP_init_Ok_settings.
    by exists d0, (d1 :: ds), e, m.
Qed.

(** ** The shape of the stack *)

Section StackFacts.
Variables bn relu dropout bias : bool.
Variables e m : float.

Lemma length_stage last_dim dim :
  length (stage bn relu dropout bias e m last_dim dim)
  = (1 + nat_of_flag bn + nat_of_flag relu + nat_of_flag dropout)%nat.
Proof. unfold stage. by destruct bn, relu, dropout. Qed.

Lemma length_stages last_dim ds :
  length (stages bn relu dropout bias e m last_dim ds)
  = (length ds * (1 + nat_of_flag bn + nat_of_flag relu + nat_of_flag dropout))%nat.
Proof.
  revert last_dim. induction ds as [|dim ds IH]; intros last_dim; [done|].
  cbn [stages]. rewrite length_app, length_stage, IH. simpl. lia.
Qed.

Lemma linears_stage last_dim dim :
  linears (stage bn relu dropout bias e m last_dim dim) = [(last_dim, dim)].
Proof. unfold stage. by destruct bn, relu, dropout. Qed.

Lemma linears_stages last_dim ds :
  linears (stages bn relu dropout bias e m last_dim ds)
  = if relu then zip (last_dim :: ds) ds else (λ dim, (last_dim, dim)) <$> ds.
Proof.
  revert last_dim. induction ds as [|dim ds IH]; intros last_dim.
  - by destruct relu.
  - cbn [stages]. unfold linears in *. rewrite omap_app.
    fold (linears (stage bn relu dropout bias e m last_dim dim)).
    rewrite linears_stage, IH. by destruct relu.
Qed.
End StackFacts.

(** With the nonlinearity the loop builds the stack of the specification. *)
Lemma stages_relu_spec bn dropout bias e m d0 ds :
  stages bn true dropout bias e m d0 ds = stack_spec bn true dropout bias e m (d0 :: ds).
Proof.
  revert d0. induction ds as [|dim ds IH]; intros d0; [done|].
  cbn [stages stack_spec]. by rewrite IH.
Qed.

Lemma MLP_init_relu_spec cfg bn dropout bias e m dims :
  dims ≠ [] →
  valid_widths dims = true →
  (bn = true → config_supplies cfg e m) →
  MLP_init cfg bn true dropout bias dims
  = Ok (mkMLP (stack_spec bn true dropout bias e m dims)).
Proof.
  intros Hne Hv Hc. destruct dims as [|d0 ds]; [done|].
  by rewrite (MLP_init_supplied _ _ _ _ _ e m), stages_relu_spec.
Qed.

(** Without it every stage starts from [dims[0]]. *)
Lemma stages_no_relu bn dropout bias e m d0 ds :
  stages bn false dropout bias e m d0 ds
  = mjoin ((λ dim, stage bn false dropout bias e m d0 dim) <$> ds).
Proof.
  induction ds as [|dim ds IH]; [done|].
  cbn [stages fmap list_fmap mjoin list_join]. by rewrite IH.
Qed.

(** ** Claims on the construction *)

(** C1: in the block built by MLP.__init__ the input width of a linear layer
    advances to the previous output width only with the nonlinearity: for
    dims of length at least 3, whose widths the layer constructors accept,
    without use_relu every linear layer takes dims[0] as its input width, and
    with use_relu the i-th linear layer takes dims[i]. (The i-th linear layer
    always has output width dims[i+1], and there are len(dims) - 1 of
    them.) *)
Theorem C1_input_width_advances_only_with_relu
    (cfg : AttrDict) (bn relu dropout bias : bool) (dims : list Z) :
  (3 ≤ length dims)%nat →
  valid_widths dims = true →
  (bn = true → ∃ e m, config_supplies cfg e m) →
  ∃ self, MLP_init cfg bn relu dropout bias dims = Ok self
    ∧ length (linears (clf self)) = (length dims - 1)%nat
    ∧ ∀ (i : nat) (io : Z * Z), linears (clf self) !! i = Some io →
        Some io.1 = (if relu then dims !! i else dims !! 0%nat)
        ∧ Some io.2 = dims !! S i.
Proof.
  intros Hlen Hv Hc.
  destruct dims as [|d0 ds]; [simpl in Hlen; lia|].
  assert (∃ e m, bn = true → config_supplies cfg e m) as (e & m & Hc').
  { destruct bn; [destruct Hc as (e & m & ?); eauto | by exists 0%float, 0%float]. }
  eexists. split; [by apply (MLP_init_supplied _ _ _ _ _ e m)|].
  cbn [clf]. rewrite linears_stages. destruct relu.
  - split; [rewrite length_zip; cbn [length]; lia|].
    intros i [a b] (x & y & [= -> ->] & Hx & Hy)%lookup_zip_with_Some.
    simpl. by rewrite Hx, Hy.
  - split; [rewrite length_fmap; cbn [length]; lia|].
    intros i [a b] (y & [= -> ->] & Hy)%list_lookup_fmap_Some.
    simpl. by rewrite Hy.
Qed.

Lemma C1_witness :
  ∃ self, MLP_init cfg0 true false true true [3; 4; 5] = Ok self
    ∧ length (linears (clf self)) = 2%nat
    ∧ ∀ (i : nat) (io : Z * Z), linears (clf self) !! i = Some io →
        Some io.1 = Some 3 ∧ Some io.2 = [3; 4; 5] !! S i.
Proof.
  apply (C1_input_width_advances_only_with_relu cfg0 true false true true [3; 4; 5]).
  - simpl. lia.
  - reflexivity.
  - intros _. exists 1e-5%float, 0.1%float, head0. repeat split; reflexivity.
Defined.

(** C2, at the failing input dims = [3, 4, 5] with every flag but use_bias
    off: the code builds Linear(3, 4), Linear(3, 5), where the consecutive
    pairs of dims give Linear(3, 4), Linear(4, 5). *)
Theorem C2_stack_at_failing_input :
  MLP_init cfg0 false false false true [3; 4; 5]
    = Ok (mkMLP [Linear 3 4 true; Linear 3 5 true])
  ∧ stack_spec false false false true 0 0 [3; 4; 5]
    = [Linear 3 4 true; Linear 4 5 true].
Proof. split; reflexivity. Qed.

(** C3, at the failing input dims = [3, 4, 5] without use_relu: linear layer 1
    maps width 3 to width 5, where dims[1] = 4. *)
Theorem C3_second_linear_at_failing_input :
  ∃ self, MLP_init cfg0 false false false true [3; 4; 5] = Ok self
    ∧ linears (clf self) !! 1%nat = Some (3, 5)
    ∧ [3; 4; 5] !! 1%nat = Some 4.
Proof. eexists. repeat split; reflexivity. Qed.

(** C5: for dims = [D0, D1], two widths the layer constructors accept, with
    use_bn and without use_relu and use_dropout the stack is the linear layer
    D0 -> D1 followed by a normalization over D1 channels, with
    HEAD.BATCHNORM_EPS as eps and HEAD.BATCHNORM_MOMENTUM as momentum. *)
Theorem C5_linear_then_normalize
    (cfg : AttrDict) (head : gmap string float) (eps momentum : float)
    (D0 D1 : Z) (bias : bool) :
  valid_size D0 = true → valid_size D1 = true →
  cfg !! "HEAD" = Some head →
  head !! "BATCHNORM_EPS" = Some eps →
  head !! "BATCHNORM_MOMENTUM" = Some momentum →
  MLP_init cfg true false false bias [D0; D1]
  = Ok (mkMLP [Linear D0 D1 bias; BatchNorm1d D1 eps momentum]).
Proof.
  intros H0 H1 Hh He Hm.
  rewrite (MLP_init_supplied _ _ _ _ _ eps momentum); [done | |].
  - by rewrite !valid_widths_cons, H0, H1.
  - intros _. by exists head.
Qed.

Lemma C5_witness :
  MLP_init cfg0 true false false true [2048; 128]
  = Ok (mkMLP [Linear 2048 128 true; BatchNorm1d 128 1e-5 0.1]).
Proof.
  apply (C5_linear_then_normalize cfg0 head0 1e-5 0.1 2048 128 true); reflexivity.
Defined.

(** C7, as the code has it: dims of length 1 is accepted and gives an empty
    stack, whatever the flags and the configuration; dims of length 0 is
    rejected, [dims[0]] raises IndexError. *)
Theorem C7_single_accepted_empty_rejected
    (cfg : AttrDict) (bn relu dropout bias : bool) :
  (∀ D : Z, MLP_init cfg bn relu dropout bias [D] = Ok (mkMLP []))
  ∧ MLP_init cfg bn relu dropout bias [] = Raise IndexError.
Proof. split; [intros D; apply MLP_init_single | apply MLP_init_empty]. Qed.

(** C7 as stated fails: with dims of length 0 the construction does not
    complete. *)
Lemma C7_counterexample :
  ¬ ∃ self, MLP_init cfg0 false false false true [] = Ok self.
Proof. intros [self Hself]. discriminate Hself. Qed.

(** C8: the configuration is read only when use_bn is true, and then only
    HEAD.BATCHNORM_EPS and HEAD.BATCHNORM_MOMENTUM: without use_bn any two
    configurations give the same result, and with it any two configurations
    that agree on these two fields do. *)
Theorem C8_config_noninterference :
  (∀ (c1 c2 : AttrDict) (relu dropout bias : bool) (dims : list Z),
     MLP_init c1 false relu dropout bias dims = MLP_init c2 false relu dropout bias dims)
  ∧ (∀ (c1 c2 : AttrDict) (bn relu dropout bias : bool) (dims : list Z),
       agree_on_bn c1 c2 →
       MLP_init c1 bn relu dropout bias dims = MLP_init c2 bn relu dropout bias dims).
Proof.
  assert (∀ c1 c2 bn relu dropout bias dims,
            settings c1 bn = settings c2 bn →
            MLP_init c1 bn relu dropout bias dims = MLP_init c2 bn relu dropout bias dims)
    as Hsame.
  { intros c1 c2 bn relu dropout bias [|d0 [|d1 ds]] Hs; [done..|].
    by rewrite !MLP_init_eq, Hs. }
  split.
  - intros. by apply Hsame.
  - intros c1 c2 bn relu dropout bias dims Hagree. apply Hsame.
    destruct bn; [|done]. unfold agree_on_bn in Hagree. unfold settings, getattr.
    destruct (c1 !! "HEAD") as [h1|], (c2 !! "HEAD") as [h2|]; try done.
    destruct Hagree as [He Hm]. simpl. rewrite He.
    destruct (h2 !! "BATCHNORM_EPS"); simpl; [|done]. by rewrite Hm.
Qed.

Lemma C8_witness :
  agree_on_bn cfg0 cfg1
  ∧ cfg0 ≠ cfg1
  ∧ MLP_init cfg0 true true true true [3; 4; 5] = MLP_init cfg1 true true true true [3; 4; 5].
Proof.
  assert (agree_on_bn cfg0 cfg1) as Hagree by (vm_compute; split; reflexivity).
  split; [exact Hagree|]. split.
  - intros Heq. assert (cfg0 !! "TRUNK" = cfg1 !! "TRUNK") as Hl by (by rewrite Heq).
    vm_compute in Hl. discriminate Hl.
  - exact (proj2 C8_config_noninterference cfg0 cfg1 true true true true [3; 4; 5] Hagree).
Defined.

(** C9: for dims of length at least 1 the stack built by MLP.__init__ has
    (len(dims) - 1) * (1 + [use_bn] + [use_relu] + [use_dropout]) layers; the
    construction completes whenever the layer constructors accept the widths
    and the configuration supplies what use_bn needs. *)
Theorem C9_layer_count
    (cfg : AttrDict) (bn relu dropout bias : bool) (dims : list Z) :
  (1 ≤ length dims)%nat →
  (∀ self, MLP_init cfg bn relu dropout bias dims = Ok self →
     length (clf self)
     = ((length dims - 1) * (1 + nat_of_flag bn + nat_of_flag relu + nat_of_flag dropout))%nat)
  ∧ (valid_widths dims = true →
     (bn = true → ∃ e m, config_supplies cfg e m) →
     ∃ self, MLP_init cfg bn relu dropout bias dims = Ok self).
Proof.
  intros Hlen. split.
  - intros self (d0 & ds & e & m & -> & ->)%MLP_init_Ok_inv.
    rewrite length_stages. simpl. by rewrite Nat.sub_0_r.
  - intros Hv Hc. destruct dims as [|d0 ds]; [simpl in Hlen; lia|].
    destruct bn.
    + destruct Hc as (e & m & Hc); [done|].
      eexists. by apply (MLP_init_supplied _ _ _ _ _ e m).
    + eexists. by apply (MLP_init_supplied _ _ _ _ _ 0%float 0%float).
Qed.

Lemma C9_witness :
  (∀ self, MLP_init cfg0 true true false true [3; 4; 5; 6] = Ok self →
     length (clf self) = 9%nat)
  ∧ ∃ self, MLP_init cfg0 true true false true [3; 4; 5; 6] = Ok self.
Proof.
  destruct (C9_layer_count cfg0 true true false true [3; 4; 5; 6]) as [Hcount Hbuilt].
  - simpl. lia.
  - split; [exact Hcount|]. apply Hbuilt; [reflexivity|].
    intros _. exists 1e-5%float, 0.1%float, head0. repeat split; reflexivity.
Defined.

(** ** The forward pass *)

Section ForwardFacts.
Variable call : Module -> Tensor -> result Tensor.

Lemma MLP_forward_eq self batch :
  MLP_forward call self batch = Sequential_call call (clf self) (torch_squeeze batch).
Proof. unfold MLP_forward. apply bind_ret. Qed.

Lemma Sequential_call_app layers1 layers2 input :
  Sequential_call call (layers1 ++ layers2) input
  = out ← Sequential_call call layers1 input; Sequential_call call layers2 out.
Proof.
  revert input. induction layers1 as [|layer layers1 IH]; intros input; [done|].
  simpl. destruct (call layer input) as [out|e]; [|done].
  rewrite !bind_Ok. apply IH.
Qed.

Hypothesis contract : shape_contract call.

Lemma Sequential_call_raises layers input e :
  Sequential_call call layers input = Raise e → e = ShapeMismatch.
Proof.
  revert input. induction layers as [|layer layers IH]; intros input; [done|].
  simpl. destruct (call layer input) as [out|e'] eqn:Hcall.
  - rewrite bind_Ok. apply IH.
  - rewrite bind_Raise. intros [= <-]. by eapply call_raises.
Qed.

Lemma Sequential_call_keeps_shape layers input out :
  Forall (λ layer, keeps_shape layer = true) layers →
  Sequential_call call layers input = Ok out → shape out = shape input.
Proof.
  intros Hkeep. revert input.
  induction Hkeep as [|layer layers Hlayer _ IH]; intros input.
  - by intros [= ->].
  - simpl. intros (mid & Hcall & Hrest)%bind_Ok_inv.
    rewrite (IH _ Hrest). by eapply other_shape.
Qed.

(** Two linear layers that take the same input width [d0], the first one
    returning another width, with shape-keeping layers in between: no input
    goes through. *)
Lemma Sequential_call_inconsistent d0 d1 d2 b b' between after input out :
  d0 ≠ d1 →
  Forall (λ layer, keeps_shape layer = true) between →
  Sequential_call call (Linear d0 d1 b :: between ++ Linear d0 d2 b' :: after) input
  ≠ Ok out.
Proof.
  intros Hne Hkeep Hrun. simpl in Hrun.
  apply bind_Ok_inv in Hrun as (t1 & Hfirst & Hrun).
  rewrite Sequential_call_app in Hrun.
  apply bind_Ok_inv in Hrun as (t2 & Hbetween & Hrun). simpl in Hrun.
  apply bind_Ok_inv in Hrun as (t3 & Hsecond & _).
  apply (linear_shape _ contract) in Hfirst as [_ Hw1].
  apply (linear_shape _ contract) in Hsecond as [Hw2 _].
  apply (Sequential_call_keeps_shape _ _ _ Hkeep) in Hbetween.
  unfold width in *. rewrite Hbetween, Hw1 in Hw2. by injection Hw2.
Qed.
End ForwardFacts.

Lemma stage_no_relu_layers bn dropout bias e m last_dim dim :
  ∃ others, stage bn false dropout bias e m last_dim dim = Linear last_dim dim bias :: others
            ∧ Forall (λ layer, keeps_shape layer = true) others.
Proof.
  unfold stage. eexists. split; [reflexivity|].
  destruct bn, dropout; simpl; repeat constructor.
Qed.

Lemma shape_call_contract : shape_contract shape_call.
Proof.
  split.
  - intros i o b t t'. unfold shape_call, width.
    rewrite <- head_reverse.
    destruct (reverse (shape t)) as [|n batch_rev]; [done|].
    case_bool_decide as Hok; [|done]. destruct Hok as [Hi Ho].
    intros [= <-]. split; [by rewrite <- Hi|].
    unfold zeros. cbn [shape]. rewrite last_reverse. simpl. f_equal. lia.
  - intros layer t t' Hkeep. destruct layer as [| c ? ? | |]; [done| | |]; simpl.
    + destruct (shape t) as [|? [|n [|? [|? ?]]]]; try done;
        case_bool_decide; try done; by intros [= <-].
    + by intros [= <-].
    + by intros [= <-].
  - intros layer t e. destruct layer as [i o ?| c ? ? | |]; simpl; try done.
    + destruct (reverse (shape t)); [by intros [= <-]|].
      case_bool_decide; [done | by intros [= <-]].
    + destruct (shape t) as [|? [|n [|? [|? ?]]]]; try (by intros [= <-]);
        case_bool_decide; try done; by intros [= <-].
Qed.

(** A stack built with the nonlinearity takes a batch through. *)
Example forward_runs_with_relu :
  ∃ self, MLP_init cfg0 true true true true [3; 4; 5] = Ok self
    ∧ MLP_forward shape_call self (zeros [2; 3; 1; 1])%nat = Ok (zeros [2; 5]%nat).
Proof. eexists. split; reflexivity. Qed.

(** ** Claims on the forward pass *)

(** C4, as the code has it: MLP.forward removes every axis of size 1 from the
    input (the elements stay) and then applies the layers in construction
    order; an input of shape (N, C, 1, 1) with N > 1 and C other than 1 is
    squeezed to (N, C); with N = 1 the batch axis goes too and the shape is
    (C,), or () when C = 1. *)
Theorem C4_forward_squeezes_then_applies (call : Module -> Tensor -> result Tensor) :
  (∀ self batch,
     MLP_forward call self batch = Sequential_call call (clf self) (torch_squeeze batch))
  ∧ (∀ layer layers input,
       Sequential_call call (layer :: layers) input
       = out ← call layer input; Sequential_call call layers out)
  ∧ (∀ batch,
       shape (torch_squeeze batch) = filter (λ d, d ≠ 1%nat) (shape batch)
       ∧ storage (torch_squeeze batch) = storage batch)
  ∧ (∀ (N C : nat) data,
       (1 < N)%nat → C ≠ 1%nat →
       shape (torch_squeeze (mkTensor [N; C; 1; 1]%nat data)) = [N; C])
  ∧ (∀ (C : nat) data,
       shape (torch_squeeze (mkTensor [1; C; 1; 1]%nat data))
       = if decide (C = 1%nat) then [] else [C]).
Proof.
  split; [apply MLP_forward_eq|]. split; [done|]. split; [done|]. split.
  - intros N C data HN HC. unfold torch_squeeze. cbn [shape].
    rewrite !filter_cons. repeat case_decide; try done; lia.
  - intros C data. unfold torch_squeeze. cbn [shape].
    rewrite !filter_cons. repeat case_decide; done.
Qed.

Lemma C4_witness :
  shape (torch_squeeze (mkTensor [4; 8; 1; 1]%nat (replicate 32 0%float))) = [4; 8]%nat.
Proof.
  apply (proj1 (proj2 (proj2 (proj2 (C4_forward_squeezes_then_applies shape_call))))
           4%nat 8%nat); lia.
Defined.

(** C4 as stated fails: an input of shape (2, 1, 1, 1) has N > 1 and is
    squeezed to (2,), not to (2, 1). *)
Lemma C4_counterexample :
  (1 < 2)%nat
  ∧ shape (torch_squeeze (mkTensor [2; 1; 1; 1]%nat [0; 0]%float)) = [2]%nat
  ∧ shape (torch_squeeze (mkTensor [2; 1; 1; 1]%nat [0; 0]%float)) ≠ [2; 1]%nat.
Proof. split; [lia|]. split; [reflexivity | discriminate]. Qed.

(** C6: for dims = [D] MLP.__init__ builds an empty stack, whatever the
    flags, and MLP.forward returns the squeezed input unchanged. *)
Theorem C6_single_width_is_identity
    (cfg : AttrDict) (bn relu dropout bias : bool) (D : Z) :
  ∃ self, MLP_init cfg bn relu dropout bias [D] = Ok self
    ∧ clf self = []
    ∧ ∀ (call : Module -> Tensor -> result Tensor) (batch : Tensor),
        MLP_forward call self batch = Ok (torch_squeeze batch).
Proof. exists (mkMLP []). repeat split. Qed.

(** C10: without use_relu, for dims of length at least 3 with
    dims[0] ≠ dims[1], the stack built by MLP.__init__ has a first linear
    layer that returns width dims[1] and a second one that expects width
    dims[0], and on a runtime whose layers follow the shape contract
    MLP.forward raises a shape mismatch on every input. *)
Theorem C10_forward_always_fails
    (call : Module -> Tensor -> result Tensor)
    (cfg : AttrDict) (bn dropout bias : bool) (dims : list Z) (d0 d1 : Z) (self : MLP) :
  shape_contract call →
  (3 ≤ length dims)%nat →
  dims !! 0%nat = Some d0 → dims !! 1%nat = Some d1 → d0 ≠ d1 →
  MLP_init cfg bn false dropout bias dims = Ok self →
  linears (clf self) !! 0%nat = Some (d0, d1)
  ∧ (∃ d2, dims !! 2%nat = Some d2 ∧ linears (clf self) !! 1%nat = Some (d0, d2))
  ∧ ∀ batch, MLP_forward call self batch = Raise ShapeMismatch.
Proof.
  intros Hcontract Hlen H0 H1 Hne Hinit.
  apply MLP_init_Ok_inv in Hinit as (d0' & ds & e & m & -> & Hclf).
  destruct ds as [|d1' [|d2 ds]]; [simpl in Hlen; lia..|].
  injection H0 as ->. injection H1 as ->.
  rewrite Hclf, linears_stages. split; [done|]. split; [by exists d2|].
  intros batch. rewrite MLP_forward_eq, Hclf. cbn [stages].
  destruct (stage_no_relu_layers bn dropout bias e m d0 d1) as (between & -> & Hkeep).
  destruct (stage_no_relu_layers bn dropout bias e m d0 d2) as (after & -> & _).
  cbn [app].
  destruct (Sequential_call call _ _) as [out|err] eqn:Hrun.
  - by apply (Sequential_call_inconsistent call Hcontract) in Hrun.
  - by apply (Sequential_call_raises call Hcontract) in Hrun as ->.
Qed.

Lemma C10_witness :
  linears [Linear 3 4 true; Dropout_default; Linear 3 5 true; Dropout_default] !! 0%nat
    = Some (3, 4)
  ∧ (∃ d2, [3; 4; 5] !! 2%nat = Some d2
           ∧ linears [Linear 3 4 true; Dropout_default; Linear 3 5 true; Dropout_default]
               !! 1%nat = Some (3, d2))
  ∧ ∀ batch,
      MLP_forward shape_call
        (mkMLP [Linear 3 4 true; Dropout_default; Linear 3 5 true; Dropout_default]) batch
      = Raise ShapeMismatch.
Proof.
  apply (C10_forward_always_fails shape_call cfg0 false true true [3; 4; 5] 3 4
           (mkMLP [Linear 3 4 true; Dropout_default; Linear 3 5 true; Dropout_default])).
  - exact shape_call_contract.
  - simpl. lia.
  - reflexivity.
  - reflexivity.
  - lia.
  - reflexivity.
Defined.

(** ** More on the construction *)

Lemma stage_layers bn relu dropout bias e m last_dim dim :
  ∃ others, stage bn relu dropout bias e m last_dim dim = Linear last_dim dim bias :: others
            ∧ Forall (λ layer, keeps_shape layer = true) others.
Proof.
  unfold stage. eexists. split; [reflexivity|].
  destruct bn, relu, dropout; simpl; repeat constructor.
Qed.

Lemma last_dim_after_cons relu last_dim dim ds :
  last_dim_after relu last_dim (dim :: ds)
  = last_dim_after relu (if relu then dim else last_dim) ds.
Proof.
  unfold last_dim_after. destruct relu; [|done].
  rewrite last_cons. by destruct (last ds).
Qed.

Lemma stages_snoc bn relu dropout bias e m last_dim ds d :
  stages bn relu dropout bias e m last_dim (ds ++ [d])
  = stages bn relu dropout bias e m last_dim ds
    ++ stage bn relu dropout bias e m (last_dim_after relu last_dim ds) d.
Proof.
  revert last_dim. induction ds as [|dim ds IH]; intros last_dim.
  - cbn [app stages]. rewrite app_nil_r. unfold last_dim_after. by destruct relu.
  - cbn [app stages]. by rewrite IH, last_dim_after_cons, app_assoc.
Qed.


(** X2: with use_bn and at least two widths, the first two of which the
    linear layer accepts, a configuration without HEAD makes MLP.__init__
    raise AttributeError for HEAD; with HEAD but without BATCHNORM_EPS it
    raises for BATCHNORM_EPS, whether or not the momentum is there; with the
    epsilon but without BATCHNORM_MOMENTUM it raises for
    BATCHNORM_MOMENTUM. *)
Theorem X2_missing_setting_raises
    (cfg : AttrDict) (relu dropout bias : bool) (dims : list Z) (d0 d1 : Z) :
  dims !! 0%nat = Some d0 → dims !! 1%nat = Some d1 →
  valid_size d0 = true → valid_size d1 = true →
  (cfg !! "HEAD" = None →
   MLP_init cfg true relu dropout bias dims = Raise (AttributeError "HEAD"))
  ∧ (∀ head, cfg !! "HEAD" = Some head → head !! "BATCHNORM_EPS" = None →
       MLP_init cfg true relu dropout bias dims = Raise (AttributeError "BATCHNORM_EPS"))
  ∧ (∀ head eps, cfg !! "HEAD" = Some head → head !! "BATCHNORM_EPS" = Some eps →
       head !! "BATCHNORM_MOMENTUM" = None →
       MLP_init cfg true relu dropout bias dims
       = Raise (AttributeError "BATCHNORM_MOMENTUM")).
Proof.
  intros H0 H1 Hv0 Hv1. destruct dims as [|d0' [|d1' ds]]; [done..|].
  injection H0 as ->. injection H1 as ->.
  rewrite MLP_init_eq, Hv0, Hv1. cbn [andb]. unfold settings, getattr. repeat split.
  - by intros ->.
  - intros head -> He. simpl. by rewrite He.
  - intros head eps -> He Hm. simpl. rewrite He. simpl. by rewrite Hm.
Qed.

Lemma X2_witness :
  MLP_init ∅ true false false true [3; 4] = Raise (AttributeError "HEAD")
  ∧ MLP_init {[ "HEAD" := ∅ ]} true false false true [3; 4]
    = Raise (AttributeError "BATCHNORM_EPS")
  ∧ MLP_init {[ "HEAD" := {[ "BATCHNORM_EPS" := 1e-5%float ]} ]} true false false true [3; 4]
    = Raise (AttributeError "BATCHNORM_MOMENTUM").
Proof.
  split; [|split].
  - apply (X2_missing_setting_raises ∅ false false true [3; 4] 3 4); reflexivity.
  - apply (X2_missing_setting_raises {[ "HEAD" := ∅ ]} false false true [3; 4] 3 4)
      with (head := ∅); reflexivity.
  - apply (X2_missing_setting_raises {[ "HEAD" := {[ "BATCHNORM_EPS" := 1e-5%float ]} ]}
             false false true [3; 4] 3 4)
      with (head := {[ "BATCHNORM_EPS" := 1e-5%float ]}) (eps := 1e-5%float);
      reflexivity.
Defined.

(** X3: with use_relu, on widths the layer constructors accept, the linear
    layers of the stack are the consecutive pairs of dims, and the stack is
    one stage per pair. *)
Theorem X3_relu_stack_follows_consecutive_pairs
    (cfg : AttrDict) (bn dropout bias : bool) (e m : float) (dims : list Z) :
  dims ≠ [] →
  valid_widths dims = true →
  (bn = true → config_supplies cfg e m) →
  ∃ self, MLP_init cfg bn true dropout bias dims = Ok self
    ∧ clf self = stack_spec bn true dropout bias e m dims
    ∧ linears (clf self) = zip dims (drop 1 dims).
Proof.
  intros Hne Hv Hc. destruct dims as [|d0 ds]; [done|].
  eexists. split; [by apply (MLP_init_supplied _ _ _ _ _ e m)|].
  cbn [clf]. split; [apply stages_relu_spec | apply linears_stages].
Qed.

Lemma X3_witness :
  ∃ self, MLP_init cfg0 true true false true [3; 4; 5] = Ok self
    ∧ clf self = stack_spec true true false true 1e-5 0.1 [3; 4; 5]
    ∧ linears (clf self) = [(3, 4); (4, 5)].
Proof.
  apply (X3_relu_stack_follows_consecutive_pairs cfg0 true false true 1e-5 0.1 [3; 4; 5]).
  - discriminate.
  - reflexivity.
  - intros _. exists head0. repeat split; reflexivity.
Defined.

(** X12: a width the layer constructors reject makes MLP.__init__ raise the
    constructor's exception as soon as a linear layer is built from it: for
    dims[0] or dims[1] that is before the configuration is read, whatever the
    flags and the configuration; for a later width it is once the
    configuration has supplied what use_bn needs.  A single width is never
    checked. *)
Theorem X12_rejected_width_raises
    (cfg : AttrDict) (bn relu dropout bias : bool) (dims : list Z) :
  (2 ≤ length dims)%nat →
  valid_widths dims = false →
  valid_widths (take 2 dims) = false ∨ (bn = true → ∃ e m, config_supplies cfg e m) →
  MLP_init cfg bn relu dropout bias dims = Raise ConstructorError.
Proof.
  intros Hlen Hv Hcase. destruct dims as [|d0 [|d1 ds]]; [simpl in Hlen; lia..|].
  rewrite MLP_init_eq. rewrite !valid_widths_cons in Hv.
  cbn [take] in Hcase. rewrite !valid_widths_cons in Hcase.
  destruct (valid_size d0), (valid_size d1); try done. cbn [andb] in *.
  destruct Hcase as [Hfirst | Hc]; [done|].
  destruct (valid_widths ds); [done|].
  destruct bn; [|done].
  destruct Hc as (e & m & Hc); [done|]. apply settings_supplies in Hc. by rewrite Hc.
Qed.

Lemma X12_witness :
  MLP_init ∅ true false false true [3; -4] = Raise ConstructorError
  ∧ MLP_init cfg0 true true false true [3; 4; -5] = Raise ConstructorError.
Proof.
  split.
  - apply (X12_rejected_width_raises ∅ true false false true [3; -4]);
      [simpl; lia | reflexivity | left; reflexivity].
  - apply (X12_rejected_width_raises cfg0 true true false true [3; 4; -5]);
      [simpl; lia | reflexivity |].
    right. intros _. exists 1e-5%float, 0.1%float, head0. repeat split; reflexivity.
Defined.

Lemma fixed_input_pairs_iff (d0 x : Z) (ds : list Z) :
  (λ dim, (d0, dim)) <$> ds = zip (x :: ds) ds
  ↔ ∀ (i : nat) (d : Z), (i < length ds)%nat → (x :: ds) !! i = Some d → d = d0.
Proof.
  revert x. induction ds as [|a ds IH]; intros x.
  - split; [|done]. intros _ i d Hi. simpl in Hi. lia.
  - change (zip (x :: a :: ds) (a :: ds)) with ((x, a) :: zip (a :: ds) ds).
    rewrite fmap_cons. split.
    + intros [= <- Hrest]. pose proof (proj1 (IH a) Hrest) as Hall. intros [|i] d Hi.
      * by intros [= <-].
      * cbn [lookup list_lookup]. apply Hall. simpl in Hi. lia.
    + intros Hall. f_equal.
      * f_equal. symmetry. apply (Hall 0%nat); [simpl; lia | done].
      * apply IH. intros i d Hi Hd. apply (Hall (S i)); [simpl; lia | done].
Qed.

(** X4: without use_relu the linear layers of the stack are the consecutive
    pairs of dims exactly when every width but the last one equals dims[0]. *)
Theorem X4_no_relu_pairs_iff_widths_equal
    (cfg : AttrDict) (bn dropout bias : bool) (dims : list Z) (d0 : Z) (self : MLP) :
  MLP_init cfg bn false dropout bias dims = Ok self →
  dims !! 0%nat = Some d0 →
  linears (clf self) = zip dims (drop 1 dims)
  ↔ ∀ (i : nat) (d : Z), (S i < length dims)%nat → dims !! i = Some d → d = d0.
Proof.
  intros (d0' & ds & e & m & -> & ->)%MLP_init_Ok_inv [= ->].
  rewrite linears_stages. cbn [drop length]. rewrite fixed_input_pairs_iff.
  split; intros Hall i d Hi; apply Hall; lia.
Qed.

Lemma X4_witness :
  linears [Linear 4 4 true; Linear 4 5 true] = zip [4; 4; 5] (drop 1 [4; 4; 5])
  ↔ ∀ (i : nat) (d : Z), (S i < length [4; 4; 5])%nat → [4; 4; 5] !! i = Some d → d = 4.
Proof.
  apply (X4_no_relu_pairs_iff_widths_equal cfg0 false false true [4; 4; 5] 4
           (mkMLP [Linear 4 4 true; Linear 4 5 true])); reflexivity.
Defined.

Lemma stages_lookup_BatchNorm1d bn relu dropout bias e' m' last_dim ds i c e m :
  stages bn relu dropout bias e' m' last_dim ds !! i = Some (BatchNorm1d c e m) →
  bn = true ∧ e = e' ∧ m = m'
  ∧ ∃ i' a, i = S i'
            ∧ stages bn relu dropout bias e' m' last_dim ds !! i' = Some (Linear a c bias).
Proof.
  revert last_dim i. induction ds as [|dim ds IH]; intros last_dim i; [done|].
  cbn [stages]. intros [Hin | [Hlen Hin]]%lookup_app_Some.
  - assert (bn = true ∧ e = e' ∧ m = m' ∧ c = dim ∧ i = 1%nat) as (-> & -> & -> & -> & ->).
    { unfold stage in Hin.
      destruct bn, relu, dropout, i as [|[|[|[|i]]]]; simpl in Hin;
        by try injection Hin as -> -> ->. }
    repeat split. exists 0%nat, last_dim. split; [done|].
    apply lookup_app_l_Some. by destruct relu, dropout.
  - apply IH in Hin as (Hbn & He & Hm & i' & a & Hi & Hlin).
    repeat split; try done.
    exists (length (stage bn relu dropout bias e' m' last_dim dim) + i')%nat, a.
    split; [lia|]. by rewrite lookup_app_r, Nat.add_comm, Nat.add_sub by lia.
Qed.

(** X5: in a stack built by MLP.__init__ every BatchNorm1d layer comes right
    after a linear layer whose output width is its number of features, and
    carries the eps and momentum of the configuration. *)
Theorem X5_batchnorm_follows_its_linear
    (cfg : AttrDict) (bn relu dropout bias : bool) (dims : list Z) (self : MLP)
    (i : nat) (c : Z) (e m : float) :
  MLP_init cfg bn relu dropout bias dims = Ok self →
  clf self !! i = Some (BatchNorm1d c e m) →
  config_supplies cfg e m
  ∧ ∃ i' a, i = S i' ∧ clf self !! i' = Some (Linear a c bias).
Proof.
  intros Hinit Hbn. destruct dims as [|d0 [|d1 ds]].
  - discriminate Hinit.
  - by injection Hinit as <-.
  - apply MLP_init_Ok_settings in Hinit as (e' & m' & Hs & Hclf).
    rewrite Hclf in Hbn |- *.
    apply stages_lookup_BatchNorm1d in Hbn as (-> & -> & -> & Hlin).
    split; [by apply settings_supplies | done].
Qed.

Lemma X5_witness :
  config_supplies cfg0 1e-5 0.1
  ∧ ∃ i' a, 4%nat = S i'
            ∧ [Linear 3 4 true; BatchNorm1d 4 1e-5 0.1; Dropout_default;
               Linear 3 5 true; BatchNorm1d 5 1e-5 0.1; Dropout_default] !! i'
              = Some (Linear a 5 true).
Proof.
  apply (X5_batchnorm_follows_its_linear cfg0 true false true true [3; 4; 5]
           (mkMLP [Linear 3 4 true; BatchNorm1d 4 1e-5 0.1; Dropout_default;
                   Linear 3 5 true; BatchNorm1d 5 1e-5 0.1; Dropout_default]));
    reflexivity.
Defined.

Lemma stages_layer_kinds bn relu dropout bias e m last_dim ds layer :
  layer ∈ stages bn relu dropout bias e m last_dim ds →
  match layer with
  | Linear _ _ b => b = bias
  | BatchNorm1d _ e' m' => bn = true ∧ e' = e ∧ m' = m
  | ReLU inplace => relu = true ∧ inplace = true
  | Dropout p => dropout = true ∧ p = 0.5%float
  end.
Proof.
  revert last_dim. induction ds as [|dim ds IH]; intros last_dim.
  - by intros ?%elem_of_nil.
  - cbn [stages]. intros [Hin | Hin]%elem_of_app; [|by eapply IH].
    unfold stage in Hin.
    destruct bn, relu, dropout; simpl in Hin;
      repeat (apply elem_of_cons in Hin as [-> | Hin]; [done|]);
      by apply elem_of_nil in Hin.
Qed.

(** X6: a stack built by MLP.__init__ holds nothing but what the flags
    ask for: every linear layer has bias = use_bias; a BatchNorm1d layer is
    there only with use_bn and carries the settings of the configuration; a
    ReLU only with use_relu, and it is in-place; a Dropout only with
    use_dropout, with probability 0.5. *)
Theorem X6_layers_follow_flags
    (cfg : AttrDict) (bn relu dropout bias : bool) (dims : list Z) (self : MLP)
    (layer : Module) :
  MLP_init cfg bn relu dropout bias dims = Ok self →
  layer ∈ clf self →
  match layer with
  | Linear _ _ b => b = bias
  | BatchNorm1d _ e m => bn = true ∧ config_supplies cfg e m
  | ReLU inplace => relu = true ∧ inplace = true
  | Dropout p => dropout = true ∧ p = 0.5%float
  end.
Proof.
  intros Hinit Hin. destruct dims as [|d0 [|d1 ds]].
  - discriminate Hinit.
  - injection Hinit as <-. by apply elem_of_nil in Hin.
  - apply MLP_init_Ok_settings in Hinit as (e & m & Hs & Hclf).
    rewrite Hclf in Hin. apply stages_layer_kinds in Hin.
    destruct layer; try done.
    destruct Hin as (-> & -> & ->). split; [done | by apply settings_supplies].
Qed.

Lemma X6_witness : true = true ∧ config_supplies cfg0 1e-5 0.1.
Proof.
  apply (X6_layers_follow_flags cfg0 true false false true [3; 4]
           (mkMLP [Linear 3 4 true; BatchNorm1d 4 1e-5 0.1]) (BatchNorm1d 4 1e-5 0.1)).
  - reflexivity.
  - cbn [clf]. apply list_elem_of_lookup_2 with 1%nat. reflexivity.
Defined.

(** X7: the widths of the linear layers depend on dims and use_relu only:
    two constructions that differ in the configuration, use_bn, use_dropout
    or use_bias have the same linear widths. *)
Theorem X7_linear_widths_ignore_other_flags
    (cfg cfg' : AttrDict) (bn bn' relu dropout dropout' bias bias' : bool)
    (dims : list Z) (self self' : MLP) :
  MLP_init cfg bn relu dropout bias dims = Ok self →
  MLP_init cfg' bn' relu dropout' bias' dims = Ok self' →
  linears (clf self) = linears (clf self').
Proof.
  intros (d0 & ds & e & m & -> & ->)%MLP_init_Ok_inv
         (d0' & ds' & e' & m' & [= <- <-] & ->)%MLP_init_Ok_inv.
  by rewrite !linears_stages.
Qed.

Lemma X7_witness :
  linears [Linear 3 4 true; BatchNorm1d 4 1e-5 0.1; ReLU true;
           Linear 4 5 true; BatchNorm1d 5 1e-5 0.1; ReLU true]
  = linears [Linear 3 4 false; ReLU true; Dropout_default;
             Linear 4 5 false; ReLU true; Dropout_default].
Proof.
  apply (X7_linear_widths_ignore_other_flags cfg0 ∅ true false true false true true false
           [3; 4; 5]
           (mkMLP [Linear 3 4 true; BatchNorm1d 4 1e-5 0.1; ReLU true;
                   Linear 4 5 true; BatchNorm1d 5 1e-5 0.1; ReLU true])
           (mkMLP [Linear 3 4 false; ReLU true; Dropout_default;
                   Linear 4 5 false; ReLU true; Dropout_default]));
    reflexivity.
Defined.

(** ** More on the forward pass *)

Lemma torch_squeeze_idemp batch : torch_squeeze (torch_squeeze batch) = torch_squeeze batch.
Proof.
  unfold torch_squeeze. cbn [shape storage]. f_equal.
  induction (shape batch) as [|d sh IH]; [done|].
  rewrite filter_cons. case_decide; [|done].
  rewrite filter_cons. case_decide; [|done]. by rewrite IH.
Qed.

(** X8: adding a width at the end of dims leaves the layers already built
    as they are and appends one stage: a linear layer into the new width,
    from the last width with use_relu and from dims[0] without, followed by
    the layers the flags ask for; the forward pass of the longer block is
    the forward pass of the shorter one followed by that stage. *)
Theorem X8_appending_a_width_appends_a_stage
    (cfg : AttrDict) (bn relu dropout bias : bool) (dims : list Z) (d : Z)
    (self self' : MLP) :
  MLP_init cfg bn relu dropout bias dims = Ok self →
  MLP_init cfg bn relu dropout bias (dims ++ [d]) = Ok self' →
  ∃ (suffix : list Module) (a : Z),
    clf self' = clf self ++ suffix
    ∧ linears suffix = [(a, d)]
    ∧ Some a = (if relu then last dims else dims !! 0%nat)
    ∧ length suffix = (1 + nat_of_flag bn + nat_of_flag relu + nat_of_flag dropout)%nat
    ∧ ∀ (call : Module -> Tensor -> result Tensor) (batch : Tensor),
        MLP_forward call self' batch
        = out ← MLP_forward call self batch; Sequential_call call suffix out.
Proof.
  intros Hinit Hinit'. destruct dims as [|d0 ds]; [discriminate Hinit|].
  assert (∃ e m, clf self = stages bn relu dropout bias e m d0 ds
                 ∧ clf self' = stages bn relu dropout bias e m d0 (ds ++ [d]))
    as (e & m & Hclf & Hclf').
  { destruct ds as [|d1 ds].
    - injection Hinit as <-.
      apply MLP_init_Ok_settings in Hinit' as (e & m & _ & Hclf'). by exists e, m.
    - apply MLP_init_Ok_settings in Hinit as (e & m & Hs & Hclf).
      apply MLP_init_Ok_settings in Hinit' as (e' & m' & Hs' & Hclf').
      rewrite Hs in Hs'. injection Hs' as <- <-. by exists e, m. }
  rewrite stages_snoc in Hclf'.
  exists (stage bn relu dropout bias e m (last_dim_after relu d0 ds) d),
         (last_dim_after relu d0 ds).
  split; [by rewrite Hclf', Hclf|]. split; [apply linears_stage|]. split.
  { unfold last_dim_after. destruct relu; [|done].
    rewrite last_cons. by destruct (last ds). }
  split; [apply length_stage|].
  intros call batch. by rewrite !MLP_forward_eq, Hclf', <- Hclf, Sequential_call_app.
Qed.

Lemma X8_witness :
  ∃ (suffix : list Module) (a : Z),
    [Linear 3 4 true; ReLU true; Linear 4 5 true; ReLU true]
    = [Linear 3 4 true; ReLU true] ++ suffix
    ∧ linears suffix = [(a, 5)]
    ∧ Some a = last [3; 4]
    ∧ length suffix = 2%nat
    ∧ ∀ (call : Module -> Tensor -> result Tensor) (batch : Tensor),
        MLP_forward call (mkMLP [Linear 3 4 true; ReLU true; Linear 4 5 true; ReLU true]) batch
        = out ← MLP_forward call (mkMLP [Linear 3 4 true; ReLU true]) batch;
          Sequential_call call suffix out.
Proof.
  apply (X8_appending_a_width_appends_a_stage cfg0 false true false true [3; 4] 5
           (mkMLP [Linear 3 4 true; ReLU true])
           (mkMLP [Linear 3 4 true; ReLU true; Linear 4 5 true; ReLU true]));
    reflexivity.
Defined.

(** X9: on a runtime whose layers follow the shape contract, whenever the
    forward pass of a block built from at least two widths returns, the last
    axis of the squeezed input had dims[0] elements and the last axis of the
    output has dims[-1] elements. *)
Theorem X9_forward_widths
    (call : Module -> Tensor -> result Tensor)
    (cfg : AttrDict) (bn relu dropout bias : bool) (dims : list Z) (d0 dn : Z)
    (self : MLP) (batch out : Tensor) :
  shape_contract call →
  (2 ≤ length dims)%nat →
  dims !! 0%nat = Some d0 → last dims = Some dn →
  MLP_init cfg bn relu dropout bias dims = Ok self →
  MLP_forward call self batch = Ok out →
  width (torch_squeeze batch) = Some d0 ∧ width out = Some dn.
Proof.
  intros Hcontract Hlen H0 Hlast Hinit Hrun.
  destruct dims as [|d0' [|d1 ds]]; [simpl in Hlen; lia..|].
  injection H0 as ->. rewrite last_cons_cons in Hlast.
  apply MLP_init_Ok_settings in Hinit as (e & m & _ & Hclf).
  rewrite MLP_forward_eq, Hclf in Hrun. split.
  - cbn [stages] in Hrun.
    destruct (stage_layers bn relu dropout bias e m d0 d1) as (others & Hstage & _).
    rewrite Hstage in Hrun. cbn [app Sequential_call] in Hrun.
    apply bind_Ok_inv in Hrun as (t1 & Hfirst & _).
    by apply (linear_shape _ Hcontract) in Hfirst as [Hw _].
  - apply last_Some in Hlast as [ds' Hds]. rewrite Hds, stages_snoc in Hrun.
    rewrite Sequential_call_app in Hrun.
    apply bind_Ok_inv in Hrun as (t & _ & Hrun).
    destruct (stage_layers bn relu dropout bias e m (last_dim_after relu d0 ds') dn)
      as (others & Hstage & Hkeep).
    rewrite Hstage in Hrun. cbn [Sequential_call] in Hrun.
    apply bind_Ok_inv in Hrun as (t' & Hlin & Hrun).
    apply (linear_shape _ Hcontract) in Hlin as [_ Hw].
    apply (Sequential_call_keeps_shape _ Hcontract _ _ _ Hkeep) in Hrun.
    unfold width in *. by rewrite Hrun.
Qed.

Lemma X9_witness :
  width (torch_squeeze (zeros [2; 3; 1; 1]%nat)) = Some 3
  ∧ width (zeros [2; 5]%nat) = Some 5.
Proof.
  apply (X9_forward_widths shape_call cfg0 true true true true [3; 4; 5] 3 5
           (mkMLP [Linear 3 4 true; BatchNorm1d 4 1e-5 0.1; ReLU true; Dropout_default;
                   Linear 4 5 true; BatchNorm1d 5 1e-5 0.1; ReLU true; Dropout_default])
           (zeros [2; 3; 1; 1]%nat) (zeros [2; 5]%nat)).
  - exact shape_call_contract.
  - simpl. lia.
  - reflexivity.
  - reflexivity.
  - reflexivity.
  - reflexivity.
Defined.

(** X10: the forward pass does not see axes of size 1: a batch and its
    squeezed form give the same result, and so do an input of shape
    (N, C, 1, 1) and the input of shape (N, C) with the same elements. *)
Theorem X10_forward_ignores_unit_axes
    (call : Module -> Tensor -> result Tensor) (self : MLP) :
  (∀ batch, MLP_forward call self (torch_squeeze batch) = MLP_forward call self batch)
  ∧ (∀ (N C : nat) data,
       MLP_forward call self (mkTensor [N; C; 1; 1]%nat data)
       = MLP_forward call self (mkTensor [N; C] data)).
Proof.
  split.
  - intros batch. by rewrite !MLP_forward_eq, torch_squeeze_idemp.
  - intros N C data. rewrite !MLP_forward_eq.
    assert (torch_squeeze (mkTensor [N; C; 1; 1]%nat data)
            = torch_squeeze (mkTensor [N; C] data)) as Hsame; [|by rewrite Hsame].
    unfold torch_squeeze. cbn [shape storage].
    rewrite !filter_cons, filter_nil. by repeat case_decide.
Qed.

(** X11: the first layer of a block built from at least two widths is the
    linear layer dims[0] -> dims[1]; when that layer rejects the squeezed
    input, the forward pass raises its exception and returns nothing. *)
Theorem X11_first_layer_rejection_surfaces
    (call : Module -> Tensor -> result Tensor)
    (cfg : AttrDict) (bn relu dropout bias : bool) (dims : list Z) (d0 d1 : Z)
    (self : MLP) (batch : Tensor) (e : exn) :
  dims !! 0%nat = Some d0 → dims !! 1%nat = Some d1 →
  MLP_init cfg bn relu dropout bias dims = Ok self →
  call (Linear d0 d1 bias) (torch_squeeze batch) = Raise e →
  clf self !! 0%nat = Some (Linear d0 d1 bias)
  ∧ MLP_forward call self batch = Raise e.
Proof.
  intros H0 H1 Hinit Hcall.
  destruct dims as [|d0' [|d1' ds]]; [done..|].
  injection H0 as ->. injection H1 as ->.
  apply MLP_init_Ok_settings in Hinit as (eps & m & _ & Hclf).
  rewrite MLP_forward_eq, Hclf. cbn [stages].
  destruct (stage_layers bn relu dropout bias eps m d0 d1) as (others & -> & _).
  split; [done|]. cbn [app Sequential_call]. by rewrite Hcall.
Qed.

Lemma X11_witness :
  [Linear 3 4 true; ReLU true] !! 0%nat = Some (Linear 3 4 true)
  ∧ MLP_forward shape_call (mkMLP [Linear 3 4 true; ReLU true]) (zeros [2; 7; 1; 1]%nat)
    = Raise ShapeMismatch.
Proof.
  apply (X11_first_layer_rejection_surfaces shape_call cfg0 false true false true
           [3; 4] 3 4 (mkMLP [Linear 3 4 true; ReLU true]) (zeros [2; 7; 1; 1]%nat)
           ShapeMismatch); reflexivity.
Defined.
